(** * sun_angles.calculate_daylight: a shallow embedding and its specification

    Source: [src/sun_angles/calculate_daylight.py].

    The Python function receives dynamically typed arguments, any of which may
    be [None].  We model the Python values it handles as [pyval], Python
    exceptions as [exc], and the function itself as a computation in a small
    state-and-exception monad over a heap of [SpatialGeometry] objects, so that
    attribute reads on [geometry] are explicit heap reads.

    The collaborators that are not in [src/] are kept abstract as Section
    variables: [dateutil.parser.parse], the part of [pd.Timestamp] that
    converts non-datetime values, [SHA_deg_from_DOY_lat] and
    [daylight_from_SHA].  Spec-based models of the last two are given in
    module [SpecEngine] and are used only for the numerical claims. *)

From Stdlib Require Import ZArith String List Bool Reals Lra Lia.
Import ListNotations.
Open Scope string_scope.
Open Scope Z_scope.
Set Warnings "-register-all".

(** ** Data model *)

(** A calendar date, as carried by a Python [datetime]. *)
Record date := mkdate { year : Z; month : Z; day : Z }.

(** Python values reaching [calculate_daylight].  [PGeom l] is a reference to
    a [SpatialGeometry] object stored in the heap at location [l]. *)
Inductive pyval :=
| PNone
| PInt (z : Z)
| PFloat (r : R)
| PStr (s : string)
| PDatetime (d : date)
| PList (l : list pyval)
| PArray (l : list pyval)
| PGeom (loc : nat).

(** Exceptions.  [UnparsableTimestamp] is what [dateutil]'s parser raises on
    a string it cannot read; [MissingInput] is the error named by the spec. *)
Inductive exc :=
| MissingInput
| UnparsableTimestamp
| TypeError
| ValueError
| AttributeError.

Inductive result (A : Type) :=
| Ok (a : A)
| Err (e : exc).
Arguments Ok {A} a.
Arguments Err {A} e.

(** A [SpatialGeometry] object: we only need its [lat] attribute. *)
Record geom := mkgeom { geom_lat : pyval }.

Definition heap := nat -> geom.

(** ** State and exception monad *)

Definition M (A : Type) := heap -> result A * heap.

Definition ret {A} (a : A) : M A := fun h => (Ok a, h).

Definition raise {A} (e : exc) : M A := fun h => (Err e, h).

Definition bind {A B} (m : M A) (k : A -> M B) : M B :=
  fun h =>
    match m h with
    | (Ok a, h') => k a h'
    | (Err e, h') => (Err e, h')
    end.

Definition lift {A} (r : result A) : M A := fun h => (r, h).

Notation "'do' x <- c1 ; c2" := (bind c1 (fun x => c2))
  (at level 60, x name, c1 at next level, right associativity).

Fixpoint mapM {A B} (f : A -> M B) (l : list A) : M (list B) :=
  match l with
  | [] => ret []
  | x :: xs => do y <- f x; do ys <- mapM f xs; ret (y :: ys)
  end.

(** [obj.lat]: reading the attribute of a geometry object; any other value
    has no such attribute. *)
Definition getattr_lat (v : pyval) : M pyval :=
  fun h =>
    match v with
    | PGeom l => (Ok (geom_lat (h l)), h)
    | _ => (Err AttributeError, h)
    end.

(** ** Python predicates used by the source *)

Definition is_None (v : pyval) : bool :=
  match v with PNone => true | _ => false end.

(** [isinstance(v, list)] *)
Definition is_list (v : pyval) : bool :=
  match v with PList _ => true | _ => false end.

(** ** [pd.Timestamp(val).dayofyear] on a date (Gregorian calendar) *)

Definition is_leap (y : Z) : bool :=
  (Z.eqb (y mod 4) 0 && negb (Z.eqb (y mod 100) 0)) || Z.eqb (y mod 400) 0.

Definition days_before_month (m : Z) : Z :=
  nth (Z.to_nat (m - 1)) [0; 31; 59; 90; 120; 151; 181; 212; 243; 273; 304; 334] 0.

Definition dayofyear (d : date) : Z :=
  days_before_month (month d) + day d
  + (if is_leap (year d) && (2 <? month d) then 1 else 0).

Section CalculateDaylight.

(** [dateutil.parser.parse] on a string: [None] when it raises. *)
Variable parse : string -> option date.
(** [pd.Timestamp(val)] on a value that is neither a string nor a datetime. *)
Variable timestamp_other : pyval -> result date.
(** The two functions of the package imported by the source. *)
Variable SHA_deg_from_DOY_lat : pyval -> pyval -> result pyval.
Variable daylight_from_SHA : pyval -> result pyval.

Definition pd_Timestamp (v : pyval) : result date :=
  match v with
  | PDatetime d => Ok d
  | _ => timestamp_other v
  end.

(** The local helper [to_doy]. *)
Definition to_doy (val : pyval) : M pyval :=
  do val <- (match val with
             | PStr s =>
                 match parse s with
                 | Some d => ret (PDatetime d)
                 | None => raise UnparsableTimestamp
                 end
             | _ => ret val
             end);
  do ts <- lift (pd_Timestamp val);
  ret (PInt (dayofyear ts)).

(** [if day_of_year is None and time_UTC is not None: ...] *)
Definition resolve_doy (day_of_year time_UTC : pyval) : M pyval :=
  if is_None day_of_year && negb (is_None time_UTC) then
    match time_UTC with
    | PList ts | PArray ts => do ds <- mapM to_doy ts; ret (PArray ds)
    | _ => to_doy time_UTC
    end
  else ret day_of_year.

(** [if isinstance(day_of_year, list): day_of_year = np.array(day_of_year)] *)
Definition normalize_doy (day_of_year : pyval) : pyval :=
  match day_of_year with
  | PList l => PArray l
  | v => v
  end.

Definition calculate_daylight
    (day_of_year lat SHA_deg time_UTC geometry : pyval) : M pyval :=
  do SHA_deg <-
    (if is_None SHA_deg then
       do lat <- (if is_None lat && negb (is_None geometry)
                  then getattr_lat geometry else ret lat);
       do day_of_year <- resolve_doy day_of_year time_UTC;
       let day_of_year := normalize_doy day_of_year in
       lift (SHA_deg_from_DOY_lat day_of_year lat)
     else ret SHA_deg);
  lift (daylight_from_SHA SHA_deg).

End CalculateDaylight.

(** The latitude [calculate_daylight] hands to the engine when [SHA_deg] is
    absent (lines 62-63): [lat] itself when given, [geometry.lat] when [lat]
    is [None] and [geometry] is a geometry object, [None] when both are
    [None]; no latitude ([None] here) when [geometry] has no [lat] attribute,
    where the source raises [AttributeError]. *)
Definition lat_used (lat geometry : pyval) (h : heap) : option pyval :=
  match lat, geometry with
  | PNone, PNone => Some PNone
  | PNone, PGeom l => Some (geom_lat (h l))
  | PNone, _ => None
  | v, _ => Some v
  end.

(** ** Spec-based models of the package's engine and converter *)

Module SpecEngine.

Local Open Scope R_scope.

Definition deg2rad (x : R) : R := x * PI / 180.
Definition rad2deg (x : R) : R := x * 180 / PI.

(** Modelled from the spec: solar declination of [SHA_deg_from_DOY_lat]
    (not in src/), "delta = 23.45 deg * sin(360/365 * (day_of_year - 81))". *)
Definition declination_deg (doy : R) : R :=
  23.45 * sin (deg2rad (360 / 365 * (doy - 81))).

(** Modelled from the spec: [SHA_deg_from_DOY_lat] (not in src/) on scalars,
    "cos(H) = -tan(latitude) * tan(delta)", clamped to [-1, 1] before the
    inverse cosine, and the result in degrees. *)
Definition sha_deg (doy lat : R) : R :=
  let cosH := - tan (deg2rad lat) * tan (deg2rad (declination_deg doy)) in
  rad2deg (acos (Rmax (-1) (Rmin 1 cosH))).

(** Modelled from the spec: [daylight_from_SHA] (not in src/) on scalars,
    "hours = (2 / 15) * SHA_deg". *)
Definition daylight_hours (SHA : R) : R := 2 / 15 * SHA.

(** A Python number as a real; anything else is not a number. *)
Definition to_R (v : pyval) : option R :=
  match v with
  | PInt z => Some (IZR z)
  | PFloat r => Some r
  | _ => None
  end.

Fixpoint traverse {A B} (f : A -> result B) (l : list A) : result (list B) :=
  match l with
  | [] => Ok []
  | x :: xs =>
      match f x with
      | Ok y => match traverse f xs with Ok ys => Ok (y :: ys) | Err e => Err e end
      | Err e => Err e
      end
  end.

Definition sha_scalar (d l : pyval) : result pyval :=
  match to_R d, to_R l with
  | Some x, Some y => Ok (PFloat (sha_deg x y))
  | _, _ => Err TypeError
  end.

(** Modelled from the spec: [SHA_deg_from_DOY_lat] (not in src/),
    elementwise over arrays with numpy broadcasting of scalars; arithmetic on
    [None] or a string raises [TypeError], arrays of different lengths
    raise [ValueError]. *)
Definition SHA_deg_from_DOY_lat (doy lat : pyval) : result pyval :=
  match doy, lat with
  | PArray ds, PArray ls =>
      if Nat.eqb (length ds) (length ls)
      then match traverse (fun p => sha_scalar (fst p) (snd p)) (combine ds ls) with
           | Ok vs => Ok (PArray vs)
           | Err e => Err e
           end
      else Err ValueError
  | PArray ds, l =>
      match traverse (fun d => sha_scalar d l) ds with
      | Ok vs => Ok (PArray vs)
      | Err e => Err e
      end
  | d, PArray ls =>
      match traverse (fun l => sha_scalar d l) ls with
      | Ok vs => Ok (PArray vs)
      | Err e => Err e
      end
  | d, l => sha_scalar d l
  end.

Definition daylight_scalar (v : pyval) : result pyval :=
  match to_R v with
  | Some x => Ok (PFloat (daylight_hours x))
  | None => Err TypeError
  end.

(** Modelled from the spec: [daylight_from_SHA] (not in src/), elementwise. *)
Definition daylight_from_SHA (v : pyval) : result pyval :=
  match v with
  | PArray vs =>
      match traverse daylight_scalar vs with
      | Ok ws => Ok (PArray ws)
      | Err e => Err e
      end
  | _ => daylight_scalar v
  end.

End SpecEngine.

(** ** Concrete collaborators for examples *)

(** A parser for ["YYYY-MM-DD"] strings only, standing in for [dateutil]. *)
Definition digit (c : Ascii.ascii) : option Z :=
  let n := Ascii.nat_of_ascii c in
  if (48 <=? n)%nat && (n <=? 57)%nat then Some (Z.of_nat n - 48) else None.

Fixpoint digits (s : string) (acc : Z) : option Z :=
  match s with
  | EmptyString => Some acc
  | String c r => match digit c with Some k => digits r (10 * acc + k) | None => None end
  end.

Definition iso_parse (s : string) : option date :=
  if Nat.eqb (String.length s) 10 then
    match digits (substring 0 4 s) 0, digits (substring 5 2 s) 0,
          digits (substring 8 2 s) 0 with
    | Some y, Some m, Some d =>
        if String.eqb (substring 4 1 s) "-" && String.eqb (substring 7 1 s) "-"
           && (1 <=? m) && (m <=? 12) && (1 <=? d) && (d <=? 31)
        then Some (mkdate y m d) else None
    | _, _, _ => None
    end
  else None.

Definition no_timestamp (v : pyval) : result date := Err TypeError.

Definition empty_heap : heap := fun _ => mkgeom PNone.

(** A heap whose geometry objects all have latitude 34. *)
Definition geo_heap : heap := fun _ => mkgeom (PFloat 34).

Example dayofyear_june21 : dayofyear (mkdate 2025 6 21) = 172.
Proof. reflexivity. Qed.

Example dayofyear_dec21 : dayofyear (mkdate 2025 12 21) = 355.
Proof. reflexivity. Qed.

Example dayofyear_leap : dayofyear (mkdate 2024 3 1) = 61.
Proof. reflexivity. Qed.

Example iso_parse_june21 : iso_parse "2025-06-21" = Some (mkdate 2025 6 21).
Proof. reflexivity. Qed.

Example iso_parse_bad : iso_parse "not a date" = None.
Proof. reflexivity. Qed.

(** ** Helper lemmas on the monad *)

Definition keeps_heap {A} (m : M A) : Prop := forall h, snd (m h) = h.

Definition never_raises {A} (e : exc) (m : M A) : Prop := forall h, fst (m h) <> Err e.

Lemma keeps_heap_ret {A} (a : A) : keeps_heap (ret a).
Proof. intro h; reflexivity. Qed.

Lemma keeps_heap_raise {A} (e : exc) : keeps_heap (@raise A e).
Proof. intro h; reflexivity. Qed.

Lemma keeps_heap_lift {A} (r : result A) : keeps_heap (lift r).
Proof. intro h; reflexivity. Qed.

Lemma keeps_heap_getattr_lat v : keeps_heap (getattr_lat v).
Proof. intro h; destruct v; reflexivity. Qed.

Lemma keeps_heap_bind {A B} (m : M A) (k : A -> M B) :
  keeps_heap m -> (forall a, keeps_heap (k a)) -> keeps_heap (bind m k).
Proof.
  intros Hm Hk h; unfold bind.
  specialize (Hm h); destruct (m h) as [[a|e] h']; simpl in *; subst;
    [apply Hk | reflexivity].
Qed.

Lemma never_raises_ret {A} e (a : A) : never_raises e (ret a).
Proof. intros h; discriminate. Qed.

Lemma never_raises_raise {A} e e' : e' <> e -> never_raises e (@raise A e').
Proof. intros Hne h H; injection H; auto. Qed.

Lemma never_raises_lift {A} e (r : result A) : r <> Err e -> never_raises e (lift r).
Proof. intros Hr h; exact Hr. Qed.

Lemma never_raises_getattr_lat v : never_raises MissingInput (getattr_lat v).
Proof. intros h; destruct v; discriminate. Qed.

Lemma never_raises_bind {A B} e (m : M A) (k : A -> M B) :
  never_raises e m -> (forall a, never_raises e (k a)) -> never_raises e (bind m k).
Proof.
  intros Hm Hk h; unfold bind.
  specialize (Hm h); destruct (m h) as [[a|e'] h']; simpl in *;
    [apply Hk | intro Heq; injection Heq as ->; apply Hm; reflexivity].
Qed.

Create HintDb heapdb.

#[local] Hint Resolve keeps_heap_ret keeps_heap_raise keeps_heap_lift
  keeps_heap_getattr_lat keeps_heap_bind : heapdb.

Lemma keeps_heap_mapM {A B} (f : A -> M B) l :
  (forall a, keeps_heap (f a)) -> keeps_heap (mapM f l).
Proof. intros Hf; induction l; simpl; auto with heapdb. Qed.

Lemma never_raises_mapM {A B} e (f : A -> M B) l :
  (forall a, never_raises e (f a)) -> never_raises e (mapM f l).
Proof.
  intros Hf; induction l; simpl.
  - apply never_raises_ret.
  - apply never_raises_bind; auto; intro; apply never_raises_bind; auto.
    intro; apply never_raises_ret.
Qed.

Section Facts.

Variable parse : string -> option date.
Variable timestamp_other : pyval -> result date.
Variable SHA_deg_from_DOY_lat : pyval -> pyval -> result pyval.
Variable daylight_from_SHA : pyval -> result pyval.

Lemma keeps_heap_to_doy v : keeps_heap (to_doy parse timestamp_other v).
Proof.
  unfold to_doy; apply keeps_heap_bind.
  - destruct v; auto with heapdb; destruct (parse s); auto with heapdb.
  - intro; auto with heapdb.
Qed.

Lemma keeps_heap_resolve_doy d t : keeps_heap (resolve_doy parse timestamp_other d t).
Proof.
  unfold resolve_doy; destruct (_ && _); auto with heapdb.
  destruct t; try apply keeps_heap_to_doy;
    apply keeps_heap_bind; auto with heapdb; apply keeps_heap_mapM, keeps_heap_to_doy.
Qed.

Lemma keeps_heap_calculate_daylight d lat s t g :
  keeps_heap (calculate_daylight parse timestamp_other SHA_deg_from_DOY_lat
                daylight_from_SHA d lat s t g).
Proof.
  unfold calculate_daylight; apply keeps_heap_bind; auto with heapdb.
  destruct (is_None s); auto with heapdb.
  apply keeps_heap_bind.
  - destruct (_ && _); auto with heapdb.
  - intro; apply keeps_heap_bind; auto with heapdb; apply keeps_heap_resolve_doy.
Qed.

Hypothesis ts_no_missing : forall v, timestamp_other v <> Err MissingInput.

Lemma never_raises_to_doy v : never_raises MissingInput (to_doy parse timestamp_other v).
Proof.
  unfold to_doy; apply never_raises_bind.
  - destruct v; try apply never_raises_ret.
    destruct (parse s); [apply never_raises_ret | apply never_raises_raise; discriminate].
  - intro a; apply never_raises_bind.
    + apply never_raises_lift; destruct a; simpl; auto; discriminate.
    + intro; apply never_raises_ret.
Qed.

Lemma never_raises_resolve_doy d t :
  never_raises MissingInput (resolve_doy parse timestamp_other d t).
Proof.
  unfold resolve_doy; destruct (_ && _); [|apply never_raises_ret].
  destruct t; try apply never_raises_to_doy;
    apply never_raises_bind; try (intro; apply never_raises_ret);
    apply never_raises_mapM, never_raises_to_doy.
Qed.

Lemma never_raises_calculate_daylight :
  (forall a b, SHA_deg_from_DOY_lat a b <> Err MissingInput) ->
  (forall v, daylight_from_SHA v <> Err MissingInput) ->
  forall d lat s t g,
    never_raises MissingInput
      (calculate_daylight parse timestamp_other SHA_deg_from_DOY_lat
         daylight_from_SHA d lat s t g).
Proof.
  intros Heng Hdl d lat s t g; unfold calculate_daylight.
  apply never_raises_bind; [|intro; apply never_raises_lift, Hdl].
  destruct (is_None s); [|apply never_raises_ret].
  apply never_raises_bind.
  - destruct (_ && _); [apply never_raises_getattr_lat | apply never_raises_ret].
  - intro; apply never_raises_bind; [apply never_raises_resolve_doy|].
    intro; apply never_raises_lift, Heng.
Qed.

End Facts.

(** ** Claims about [calculate_daylight] *)

Section Claims.

Variable parse : string -> option date.
Variable timestamp_other : pyval -> result date.
Variable SHA_deg_from_DOY_lat : pyval -> pyval -> result pyval.
Variable daylight_from_SHA : pyval -> result pyval.

(** The engine followed by the converter, as [calculate_daylight] chains them. *)
Definition engine_then_convert (d lat : pyval) : result pyval :=
  match SHA_deg_from_DOY_lat d lat with
  | Ok s => daylight_from_SHA s
  | Err e => Err e
  end.

Ltac unfold_cd :=
  unfold calculate_daylight, resolve_doy, normalize_doy, getattr_lat,
    bind, ret, raise, lift; simpl.

(** C2: whenever [SHA_deg] is supplied (not [None]), [calculate_daylight]
    returns [daylight_from_SHA(SHA_deg)] with the heap untouched, whatever the
    other arguments, the parser and the engine are; with the spec's converter
    a float [x] gives [(2/15) * x]. *)
Theorem calculate_daylight_SHA_given :
  forall day_of_year lat x time_UTC geometry h,
    x <> PNone ->
    calculate_daylight parse timestamp_other SHA_deg_from_DOY_lat daylight_from_SHA
        day_of_year lat x time_UTC geometry h = (daylight_from_SHA x, h) /\
    (forall r, calculate_daylight parse timestamp_other SHA_deg_from_DOY_lat
                 SpecEngine.daylight_from_SHA day_of_year lat (PFloat r)
                 time_UTC geometry h
               = (Ok (PFloat (2 / 15 * r)%R), h)).
Proof.
  intros d lat x t g h Hx; split.
  - destruct x; try congruence; reflexivity.
  - intro r; reflexivity.
Qed.

(** C10: when [day_of_year] is supplied, [time_UTC] is never looked at: two
    calls that differ only in [time_UTC] have the same outcome (including the
    heap), even when one of the [time_UTC] values would not parse. *)
Theorem calculate_daylight_time_UTC_ignored :
  forall day_of_year lat SHA_deg t1 t2 geometry h,
    day_of_year <> PNone ->
    calculate_daylight parse timestamp_other SHA_deg_from_DOY_lat daylight_from_SHA
        day_of_year lat SHA_deg t1 geometry h
    = calculate_daylight parse timestamp_other SHA_deg_from_DOY_lat daylight_from_SHA
        day_of_year lat SHA_deg t2 geometry h.
Proof.
  intros d lat s t1 t2 g h Hd.
  unfold calculate_daylight, resolve_doy.
  destruct d; try congruence; reflexivity.
Qed.

(** C5: with [SHA_deg] absent, a supplied [lat] makes [geometry] irrelevant;
    with [lat] absent and a geometry given, the call behaves as if
    [lat = geometry.lat] had been supplied; and no call changes the heap of
    geometry objects. *)
Theorem calculate_daylight_lat_resolution :
  forall day_of_year lat time_UTC geometry h,
    (lat <> PNone ->
     calculate_daylight parse timestamp_other SHA_deg_from_DOY_lat daylight_from_SHA
         day_of_year lat PNone time_UTC geometry h
     = calculate_daylight parse timestamp_other SHA_deg_from_DOY_lat daylight_from_SHA
         day_of_year lat PNone time_UTC PNone h) /\
    (forall l, lat = PNone -> geometry = PGeom l ->
     calculate_daylight parse timestamp_other SHA_deg_from_DOY_lat daylight_from_SHA
         day_of_year lat PNone time_UTC geometry h
     = calculate_daylight parse timestamp_other SHA_deg_from_DOY_lat daylight_from_SHA
         day_of_year (geom_lat (h l)) PNone time_UTC PNone h) /\
    (forall SHA_deg, snd (calculate_daylight parse timestamp_other SHA_deg_from_DOY_lat daylight_from_SHA
        day_of_year lat SHA_deg time_UTC geometry h) = h).
Proof.
  intros d lat t g h; split; [|split].
  - intro Hl; unfold calculate_daylight; destruct lat; try congruence;
      reflexivity.
  - intros l -> ->; unfold calculate_daylight, bind, getattr_lat; simpl.
    destruct (geom_lat (h l)); reflexivity.
  - intro s; apply keeps_heap_calculate_daylight.
Qed.

(** Unfolding of [calculate_daylight] when [SHA_deg] is absent. *)
Lemma calculate_daylight_SHA_absent :
  forall d lat t g h,
    calculate_daylight parse timestamp_other SHA_deg_from_DOY_lat daylight_from_SHA
        d lat PNone t g h =
    match (if is_None lat && negb (is_None g) then getattr_lat g else ret lat) h with
    | (Ok lat', h1) =>
        match resolve_doy parse timestamp_other d t h1 with
        | (Ok d', h2) => (engine_then_convert (normalize_doy d') lat', h2)
        | (Err e, h2) => (Err e, h2)
        end
    | (Err e, h1) => (Err e, h1)
    end.
Proof.
  intros d lat t g h; unfold calculate_daylight, bind, lift, engine_then_convert.
  simpl.
  destruct ((if is_None lat && negb (is_None g) then getattr_lat g else ret lat) h)
    as [[lat'|e] h1]; [|reflexivity].
  destruct (resolve_doy parse timestamp_other d t h1) as [[d'|e] h2]; [|reflexivity].
  destruct (SHA_deg_from_DOY_lat (normalize_doy d') lat'); reflexivity.
Qed.

Lemma lat_step_used :
  forall lat g h lat', lat_used lat g h = Some lat' ->
    (if is_None lat && negb (is_None g) then getattr_lat g else ret lat) h
    = (Ok lat', h).
Proof.
  intros lat g h lat'.
  destruct lat; try (destruct g); simpl; intro H; try discriminate;
    injection H as <-; reflexivity.
Qed.

(** A value that [to_doy] turns into the date [d]: a datetime, or a string
    the parser reads as [d]. *)
Definition parses (v : pyval) (d : date) : Prop :=
  v = PDatetime d \/ exists s, v = PStr s /\ parse s = Some d.

Lemma to_doy_parses :
  forall v d h, parses v d ->
    to_doy parse timestamp_other v h = (Ok (PInt (dayofyear d)), h).
Proof.
  intros v d h [-> | [s [-> Hs]]]; unfold to_doy, bind, ret, lift, raise; simpl.
  - reflexivity.
  - rewrite Hs; reflexivity.
Qed.

Lemma mapM_to_doy_parses :
  forall vs ds h, Forall2 parses vs ds ->
    mapM (to_doy parse timestamp_other) vs h
    = (Ok (map (fun d => PInt (dayofyear d)) ds), h).
Proof.
  intros vs ds h Hall; induction Hall as [|v d vs ds Hv _ IH]; [reflexivity|].
  cbn [mapM]; unfold bind; rewrite (to_doy_parses v d h Hv).
  cbv beta iota; rewrite IH; reflexivity.
Qed.

Lemma calculate_daylight_time_scalar :
  forall lat g h v d, parses v d ->
    calculate_daylight parse timestamp_other SHA_deg_from_DOY_lat daylight_from_SHA
        PNone lat PNone v g h
    = calculate_daylight parse timestamp_other SHA_deg_from_DOY_lat daylight_from_SHA
        (PInt (dayofyear d)) lat PNone PNone g h.
Proof.
  intros lat g h v d Hv.
  rewrite !calculate_daylight_SHA_absent.
  destruct ((if is_None lat && negb (is_None g) then getattr_lat g else ret lat) h)
    as [[lat'|e] h1]; [|reflexivity].
  assert (Hr : resolve_doy parse timestamp_other PNone v h1
               = (Ok (PInt (dayofyear d)), h1)).
  { destruct Hv as [-> | [s [-> Hs]]]; unfold resolve_doy; simpl;
      apply to_doy_parses; [left | right; exists s]; auto. }
  rewrite Hr; reflexivity.
Qed.

Lemma resolve_doy_unparsable :
  forall vs s h,
    parse s = None ->
    Forall (fun v => exists s', v = PStr s') vs -> In (PStr s) vs ->
    mapM (to_doy parse timestamp_other) vs h = (Err UnparsableTimestamp, h).
Proof.
  intros vs s h Hs Hall Hin; induction Hall as [|v vs [s' ->] _ IH];
    [destruct Hin|].
  assert (Hd : to_doy parse timestamp_other (PStr s') h
               = match parse s' with
                 | Some d => (Ok (PInt (dayofyear d)), h)
                 | None => (Err UnparsableTimestamp, h)
                 end)
    by (unfold to_doy, bind, ret, raise, lift; simpl; destruct (parse s'); reflexivity).
  cbn [mapM]; unfold bind at 1; rewrite Hd.
  destruct (parse s') eqn:Hp; [|reflexivity].
  destruct Hin as [Heq | Hin]; [injection Heq as ->; congruence|].
  cbv beta iota; unfold bind at 1; rewrite (IH Hin); reflexivity.
Qed.

(** C3: with [SHA_deg] and [day_of_year] absent, a single datetime or
    parseable string [time_UTC] acts as the scalar day of year
    [dayofyear d]; a list or array of them acts as the array of their days of
    year; and a supplied [day_of_year] takes precedence over [time_UTC]. *)
Theorem calculate_daylight_doy_from_time_UTC :
  forall lat geometry h,
    (forall v d, parses v d ->
       calculate_daylight parse timestamp_other SHA_deg_from_DOY_lat daylight_from_SHA
           PNone lat PNone v geometry h
       = calculate_daylight parse timestamp_other SHA_deg_from_DOY_lat daylight_from_SHA
           (PInt (dayofyear d)) lat PNone PNone geometry h) /\
    (forall vs ds, Forall2 parses vs ds ->
       calculate_daylight parse timestamp_other SHA_deg_from_DOY_lat daylight_from_SHA
           PNone lat PNone (PList vs) geometry h
       = calculate_daylight parse timestamp_other SHA_deg_from_DOY_lat daylight_from_SHA
           (PArray (map (fun d => PInt (dayofyear d)) ds)) lat PNone PNone geometry h /\
       calculate_daylight parse timestamp_other SHA_deg_from_DOY_lat daylight_from_SHA
           PNone lat PNone (PArray vs) geometry h
       = calculate_daylight parse timestamp_other SHA_deg_from_DOY_lat daylight_from_SHA
           (PArray (map (fun d => PInt (dayofyear d)) ds)) lat PNone PNone geometry h) /\
    (forall day_of_year t, day_of_year <> PNone ->
       calculate_daylight parse timestamp_other SHA_deg_from_DOY_lat daylight_from_SHA
           day_of_year lat PNone t geometry h
       = calculate_daylight parse timestamp_other SHA_deg_from_DOY_lat daylight_from_SHA
           day_of_year lat PNone PNone geometry h).
Proof.
  intros lat g h; split; [|split].
  - apply calculate_daylight_time_scalar.
  - intros vs ds Hall; rewrite !calculate_daylight_SHA_absent.
    destruct ((if is_None lat && negb (is_None g) then getattr_lat g else ret lat) h)
      as [[lat'|e] h1]; [|split; reflexivity].
    assert (Hm := mapM_to_doy_parses vs ds h1 Hall).
    unfold resolve_doy; cbn [is_None negb andb]; unfold bind; rewrite Hm.
    split; reflexivity.
  - intros d t Hd; unfold calculate_daylight, resolve_doy.
    destruct d; try congruence; reflexivity.
Qed.

(** C4: when the parser reads ["2025-06-21"] as June 21st 2025,
    [calculate_daylight(time_UTC='2025-06-21', lat=34.0)] and
    [calculate_daylight(day_of_year=172, lat=34.0)] have the same outcome. *)
Theorem calculate_daylight_june21 :
  forall h,
    parse "2025-06-21" = Some (mkdate 2025 6 21) ->
    calculate_daylight parse timestamp_other SHA_deg_from_DOY_lat daylight_from_SHA
        PNone (PFloat 34) PNone (PStr "2025-06-21") PNone h
    = calculate_daylight parse timestamp_other SHA_deg_from_DOY_lat daylight_from_SHA
        (PInt 172) (PFloat 34) PNone PNone PNone h.
Proof.
  intros h Hp.
  apply (calculate_daylight_time_scalar (PFloat 34) PNone h
           (PStr "2025-06-21") (mkdate 2025 6 21)).
  right; exists "2025-06-21"; auto.
Qed.

(** C6: with [SHA_deg] absent and the latitude resolved to [lat'] (from
    [lat] or from [geometry]), a [day_of_year] given as a list reaches the
    engine as an array with the same elements, and any other supplied
    [day_of_year] reaches it unchanged, whatever [time_UTC] is. *)
Theorem calculate_daylight_doy_normalized :
  forall lat geometry time_UTC h lat',
    lat_used lat geometry h = Some lat' ->
    (forall l, calculate_daylight parse timestamp_other SHA_deg_from_DOY_lat daylight_from_SHA
        (PList l) lat PNone time_UTC geometry h
               = (engine_then_convert (PArray l) lat', h)) /\
    (forall v, v <> PNone -> is_list v = false ->
       calculate_daylight parse timestamp_other SHA_deg_from_DOY_lat daylight_from_SHA
           v lat PNone time_UTC geometry h = (engine_then_convert v lat', h)).
Proof.
  intros lat g t h lat' Hu; pose proof (lat_step_used lat g h lat' Hu) as Hs.
  split.
  - intro l; rewrite calculate_daylight_SHA_absent, Hs; reflexivity.
  - intros v Hv Hl; rewrite calculate_daylight_SHA_absent, Hs.
    destruct v; simpl in Hl; try congruence; reflexivity.
Qed.

(** C7: with [SHA_deg] and [day_of_year] absent, a [time_UTC] string the
    parser rejects makes the call raise [UnparsableTimestamp], and so does a
    list or array of strings containing it; the latitude lookup cannot
    fail first when [lat] is given or [geometry] is [None] or a geometry
    object. *)
Theorem calculate_daylight_unparsable :
  forall lat geometry h s,
    parse s = None ->
    (lat <> PNone \/ geometry = PNone \/ exists l, geometry = PGeom l) ->
    fst (calculate_daylight parse timestamp_other SHA_deg_from_DOY_lat daylight_from_SHA
        PNone lat PNone (PStr s) geometry h) = Err UnparsableTimestamp /\
    (forall vs, Forall (fun v => exists s', v = PStr s') vs -> In (PStr s) vs ->
       fst (calculate_daylight parse timestamp_other SHA_deg_from_DOY_lat daylight_from_SHA
           PNone lat PNone (PList vs) geometry h) = Err UnparsableTimestamp /\
       fst (calculate_daylight parse timestamp_other SHA_deg_from_DOY_lat daylight_from_SHA
           PNone lat PNone (PArray vs) geometry h) = Err UnparsableTimestamp).
Proof.
  intros lat g h s Hs Hg.
  assert (Hlat : exists lat',
    (if is_None lat && negb (is_None g) then getattr_lat g else ret lat) h
    = (Ok lat', h)).
  { destruct lat; simpl; try (eexists; reflexivity).
    destruct Hg as [Hn | [-> | [l ->]]]; [congruence | | ];
      eexists; reflexivity. }
  destruct Hlat as [lat' Hlat].
  split.
  - rewrite calculate_daylight_SHA_absent, Hlat.
    unfold resolve_doy, to_doy, bind, raise; simpl; rewrite Hs; reflexivity.
  - intros vs Hall Hin; rewrite !calculate_daylight_SHA_absent, Hlat.
    assert (Hm := resolve_doy_unparsable vs s h Hs Hall Hin).
    unfold resolve_doy; cbn [is_None negb andb]; unfold bind; rewrite Hm.
    split; reflexivity.
Qed.

(** C1 (as the code has it): [calculate_daylight] checks no input for
    presence.  With [SHA_deg] absent it hands a missing latitude (no [lat],
    no [geometry]) to the engine as [None] together with whatever day of year
    it resolved (given, or derived from [time_UTC]); it hands a missing day
    of year (no [day_of_year], no [time_UTC]) to the engine as [None]
    together with the latitude it resolved (given, or read from
    [geometry]); so with no argument at all the outcome is that of
    [SHA_deg_from_DOY_lat(None, None)].  And it raises no [MissingInput] of
    its own: when none of its collaborators raises it, neither does
    [calculate_daylight]. *)
Theorem calculate_daylight_no_presence_check :
  forall h,
    calculate_daylight parse timestamp_other SHA_deg_from_DOY_lat daylight_from_SHA
        PNone PNone PNone PNone PNone h = (engine_then_convert PNone PNone, h) /\
    (forall d t d' h',
       resolve_doy parse timestamp_other d t h = (Ok d', h') ->
       calculate_daylight parse timestamp_other SHA_deg_from_DOY_lat daylight_from_SHA
           d PNone PNone t PNone h = (engine_then_convert (normalize_doy d') PNone, h')) /\
    (forall lat g lat', lat_used lat g h = Some lat' ->
       calculate_daylight parse timestamp_other SHA_deg_from_DOY_lat daylight_from_SHA
           PNone lat PNone PNone g h = (engine_then_convert PNone lat', h)) /\
    ((forall v, timestamp_other v <> Err MissingInput) ->
     (forall a b, SHA_deg_from_DOY_lat a b <> Err MissingInput) ->
     (forall v, daylight_from_SHA v <> Err MissingInput) ->
     forall d lat s t g, fst (calculate_daylight parse timestamp_other SHA_deg_from_DOY_lat daylight_from_SHA
         d lat s t g h) <> Err MissingInput).
Proof.
  intros h; split; [|split; [|split]].
  - rewrite calculate_daylight_SHA_absent; reflexivity.
  - intros d t d' h' Hr; rewrite calculate_daylight_SHA_absent; simpl.
    rewrite Hr; reflexivity.
  - intros lat g lat' Hu; rewrite calculate_daylight_SHA_absent.
    rewrite (lat_step_used lat g h lat' Hu); reflexivity.
  - intros Hts Heng Hdl d lat s t g.
    apply (never_raises_calculate_daylight parse timestamp_other
             SHA_deg_from_DOY_lat daylight_from_SHA Hts Heng Hdl).
Qed.

End Claims.

(** ** Claims that need the spec's engine and converter *)

Section WithSpecEngine.

Variable parse : string -> option date.
Variable timestamp_other : pyval -> result date.

(** C8: [calculate_daylight(time_UTC=['2025-06-21','2025-12-21'], lat=L)]
    is the 2-element array of the two scalar calls, for every latitude [L],
    when the parser reads both strings. *)
Theorem calculate_daylight_elementwise :
  forall (L : R) d1 d2 h,
    parse "2025-06-21" = Some d1 -> parse "2025-12-21" = Some d2 ->
    exists a b,
      calculate_daylight parse timestamp_other SpecEngine.SHA_deg_from_DOY_lat SpecEngine.daylight_from_SHA
          PNone (PFloat L) PNone
          (PList [PStr "2025-06-21"; PStr "2025-12-21"]) PNone h
      = (Ok (PArray [a; b]), h) /\
      calculate_daylight parse timestamp_other SpecEngine.SHA_deg_from_DOY_lat SpecEngine.daylight_from_SHA
          PNone (PFloat L) PNone (PStr "2025-06-21") PNone h = (Ok a, h) /\
      calculate_daylight parse timestamp_other SpecEngine.SHA_deg_from_DOY_lat SpecEngine.daylight_from_SHA
          PNone (PFloat L) PNone (PStr "2025-12-21") PNone h = (Ok b, h).
Proof.
  intros L d1 d2 h H1 H2.
  do 2 eexists.
  unfold calculate_daylight, resolve_doy, to_doy, bind, ret, raise, lift; simpl.
  rewrite H1, H2; simpl.
  split; [reflexivity | split; reflexivity].
Qed.

Lemma acos_deg_bound (x : R) : (0 <= SpecEngine.rad2deg (acos x) <= 180)%R.
Proof.
  unfold SpecEngine.rad2deg.
  pose proof (acos_bound x) as [Hlo Hhi]; pose proof PI_RGT_0.
  assert (Hq : (0 <= acos x * / PI <= 1)%R).
  { split.
    - apply Rmult_le_pos; [lra | apply Rlt_le, Rinv_0_lt_compat; lra].
    - apply Rmult_le_reg_r with PI; [lra|].
      rewrite Rmult_assoc, Rinv_l by lra; lra. }
  unfold Rdiv; replace (acos x * 180 * / PI)%R with (180 * (acos x * / PI))%R by ring.
  lra.
Qed.

(** C9: for latitudes in [[-66, 66]] and days of year in [[1, 366]], the
    spec's engine followed by its converter gives a value in [[0, 24]], and
    this is what [calculate_daylight(day_of_year=d, lat=L)] returns. *)
Theorem calculate_daylight_in_0_24 :
  forall (d : Z) (L : R) h,
    (-66 <= L <= 66)%R -> 1 <= d <= 366 ->
    (0 <= SpecEngine.daylight_hours (SpecEngine.sha_deg (IZR d) L) <= 24)%R /\
    calculate_daylight parse timestamp_other SpecEngine.SHA_deg_from_DOY_lat SpecEngine.daylight_from_SHA
        (PInt d) (PFloat L) PNone PNone PNone h
    = (Ok (PFloat (SpecEngine.daylight_hours (SpecEngine.sha_deg (IZR d) L))), h).
Proof.
  intros d L h HL Hd; split.
  - unfold SpecEngine.daylight_hours, SpecEngine.sha_deg.
    match goal with |- context [acos ?x] => pose proof (acos_deg_bound x) end.
    lra.
  - reflexivity.
Qed.

End WithSpecEngine.

(** C1 refuted: called with no argument at all, [calculate_daylight] does
    not raise [MissingInput]; with the spec's engine, the [None] latitude and
    day of year reach the arithmetic, which raises [TypeError]. *)
Lemma calculate_daylight_no_args_TypeError :
  fst (calculate_daylight iso_parse no_timestamp SpecEngine.SHA_deg_from_DOY_lat
         SpecEngine.daylight_from_SHA PNone PNone PNone PNone PNone empty_heap)
  = Err TypeError /\
  fst (calculate_daylight iso_parse no_timestamp SpecEngine.SHA_deg_from_DOY_lat
         SpecEngine.daylight_from_SHA PNone PNone PNone PNone PNone empty_heap)
  <> Err MissingInput.
Proof. split; [reflexivity | discriminate]. Qed.

(** ** Witnesses: the theorems above at concrete inputs *)

Module W.

Abbreviation SHA := SpecEngine.SHA_deg_from_DOY_lat.
Abbreviation DL := SpecEngine.daylight_from_SHA.
Abbreviation cdw := (calculate_daylight iso_parse no_timestamp SHA DL).

Lemma calculate_daylight_SHA_given_witness :
  PFloat 100 <> PNone /\
  cdw PNone PNone (PFloat 100) (PStr "2025-06-21") (PGeom 0) empty_heap
  = (DL (PFloat 100), empty_heap).
Proof.
  split; [discriminate|].
  exact (proj1 (calculate_daylight_SHA_given iso_parse no_timestamp SHA DL
                  PNone PNone (PFloat 100) (PStr "2025-06-21") (PGeom 0) empty_heap
                  ltac:(discriminate))).
Defined.

Lemma calculate_daylight_time_UTC_ignored_witness :
  PInt 172 <> PNone /\
  cdw (PInt 172) (PFloat 34) PNone (PStr "garbage") PNone empty_heap
  = cdw (PInt 172) (PFloat 34) PNone (PStr "2025-06-21") PNone empty_heap.
Proof.
  split; [discriminate|].
  exact (calculate_daylight_time_UTC_ignored iso_parse no_timestamp SHA DL
           (PInt 172) (PFloat 34) PNone (PStr "garbage") (PStr "2025-06-21") PNone
           empty_heap ltac:(discriminate)).
Defined.

Lemma calculate_daylight_lat_resolution_witness :
  PFloat 34 <> PNone /\
  cdw (PInt 172) (PFloat 34) PNone PNone (PGeom 0) empty_heap
  = cdw (PInt 172) (PFloat 34) PNone PNone PNone empty_heap.
Proof.
  split; [discriminate|].
  exact (proj1 (calculate_daylight_lat_resolution iso_parse no_timestamp SHA DL
                  (PInt 172) (PFloat 34) PNone (PGeom 0) empty_heap)
               ltac:(discriminate)).
Defined.

Lemma calculate_daylight_doy_from_time_UTC_witness :
  parses iso_parse (PStr "2025-06-21") (mkdate 2025 6 21) /\
  cdw PNone (PFloat 34) PNone (PStr "2025-06-21") PNone empty_heap
  = cdw (PInt (dayofyear (mkdate 2025 6 21))) (PFloat 34) PNone PNone PNone empty_heap.
Proof.
  assert (Hp : parses iso_parse (PStr "2025-06-21") (mkdate 2025 6 21))
    by (right; exists "2025-06-21"; split; reflexivity).
  split; [exact Hp|].
  exact (proj1 (calculate_daylight_doy_from_time_UTC iso_parse no_timestamp SHA DL
                  (PFloat 34) PNone empty_heap) _ _ Hp).
Defined.

Lemma calculate_daylight_june21_witness :
  iso_parse "2025-06-21" = Some (mkdate 2025 6 21) /\
  cdw PNone (PFloat 34) PNone (PStr "2025-06-21") PNone empty_heap
  = cdw (PInt 172) (PFloat 34) PNone PNone PNone empty_heap.
Proof.
  split; [reflexivity|].
  exact (calculate_daylight_june21 iso_parse no_timestamp SHA DL empty_heap
           eq_refl).
Defined.

Lemma calculate_daylight_doy_normalized_witness :
  lat_used PNone (PGeom 0) geo_heap = Some (PFloat 34) /\
  cdw (PList [PInt 172]) PNone PNone PNone (PGeom 0) geo_heap
  = (engine_then_convert SHA DL (PArray [PInt 172]) (PFloat 34), geo_heap).
Proof.
  assert (Hu : lat_used PNone (PGeom 0) geo_heap = Some (PFloat 34)) by reflexivity.
  split; [exact Hu|].
  exact (proj1 (calculate_daylight_doy_normalized iso_parse no_timestamp SHA DL
                  PNone (PGeom 0) PNone geo_heap (PFloat 34) Hu) [PInt 172]).
Defined.

Lemma calculate_daylight_unparsable_witness :
  iso_parse "garbage" = None /\
  fst (cdw PNone (PFloat 34) PNone (PStr "garbage") PNone empty_heap)
  = Err UnparsableTimestamp.
Proof.
  assert (Hl : PFloat 34 <> PNone) by discriminate.
  split; [reflexivity|].
  exact (proj1 (calculate_daylight_unparsable iso_parse no_timestamp SHA DL
                  (PFloat 34) PNone empty_heap "garbage" eq_refl (or_introl Hl))).
Defined.

Lemma calculate_daylight_no_presence_check_witness :
  resolve_doy iso_parse no_timestamp PNone (PStr "2025-06-21") empty_heap
  = (Ok (PInt 172), empty_heap) /\
  cdw PNone PNone PNone (PStr "2025-06-21") PNone empty_heap
  = (engine_then_convert SHA DL (normalize_doy (PInt 172)) PNone, empty_heap).
Proof.
  assert (Hr : resolve_doy iso_parse no_timestamp PNone (PStr "2025-06-21") empty_heap
               = (Ok (PInt 172), empty_heap)) by reflexivity.
  split; [exact Hr|].
  exact (proj1 (proj2 (calculate_daylight_no_presence_check iso_parse no_timestamp
                         SHA DL empty_heap)) PNone (PStr "2025-06-21") (PInt 172)
                         empty_heap Hr).
Defined.

Lemma calculate_daylight_elementwise_witness :
  iso_parse "2025-06-21" = Some (mkdate 2025 6 21) /\
  iso_parse "2025-12-21" = Some (mkdate 2025 12 21) /\
  exists a b,
    cdw PNone (PFloat 34) PNone
        (PList [PStr "2025-06-21"; PStr "2025-12-21"]) PNone empty_heap
    = (Ok (PArray [a; b]), empty_heap) /\
    cdw PNone (PFloat 34) PNone (PStr "2025-06-21") PNone empty_heap
    = (Ok a, empty_heap) /\
    cdw PNone (PFloat 34) PNone (PStr "2025-12-21") PNone empty_heap
    = (Ok b, empty_heap).
Proof.
  split; [reflexivity | split; [reflexivity|]].
  exact (calculate_daylight_elementwise iso_parse no_timestamp 34%R
           (mkdate 2025 6 21) (mkdate 2025 12 21) empty_heap eq_refl eq_refl).
Defined.

Lemma calculate_daylight_in_0_24_witness :
  (-66 <= 34 <= 66)%R /\ 1 <= 172 <= 366 /\
  (0 <= SpecEngine.daylight_hours (SpecEngine.sha_deg (IZR 172) 34) <= 24)%R.
Proof.
  split; [lra | split; [lia|]].
  exact (proj1 (calculate_daylight_in_0_24 iso_parse no_timestamp 172 34%R
                  empty_heap ltac:(lra) ltac:(lia))).
Defined.

End W.

(** ** Further properties of [calculate_daylight] read off the source *)

Section Extras.

Variable parse : string -> option date.
Variable timestamp_other : pyval -> result date.
Variable SHA_deg_from_DOY_lat : pyval -> pyval -> result pyval.
Variable daylight_from_SHA : pyval -> result pyval.

Lemma to_doy_keeps_heap_eq :
  forall v h, snd (to_doy parse timestamp_other v h) = h.
Proof. intros v h; apply keeps_heap_to_doy. Qed.

(** An empty [time_UTC] list or array is not an error of the resolver:
    whenever the latitude resolves to [lat'] (from [lat] or [geometry]), the
    engine receives an empty array of days of year and [lat']. *)
Theorem calculate_daylight_empty_time_UTC :
  forall lat geometry h lat',
    lat_used lat geometry h = Some lat' ->
    calculate_daylight parse timestamp_other SHA_deg_from_DOY_lat daylight_from_SHA
        PNone lat PNone (PList []) geometry h
    = (engine_then_convert SHA_deg_from_DOY_lat daylight_from_SHA (PArray []) lat', h) /\
    calculate_daylight parse timestamp_other SHA_deg_from_DOY_lat daylight_from_SHA
        PNone lat PNone (PArray []) geometry h
    = (engine_then_convert SHA_deg_from_DOY_lat daylight_from_SHA (PArray []) lat', h).
Proof.
  intros lat g h lat' Hu; rewrite !calculate_daylight_SHA_absent.
  rewrite (lat_step_used lat g h lat' Hu); split; reflexivity.
Qed.

(** The latitude is resolved before the day of year: with [lat] absent and a
    [geometry] that is no geometry object, the call raises [AttributeError]
    whatever [day_of_year] and [time_UTC] are (an unparsable [time_UTC] is
    never reached). *)
Theorem calculate_daylight_lat_before_doy :
  forall day_of_year time_UTC geometry h,
    geometry <> PNone -> (forall l, geometry <> PGeom l) ->
    calculate_daylight parse timestamp_other SHA_deg_from_DOY_lat daylight_from_SHA
        day_of_year PNone PNone time_UTC geometry h
    = (Err AttributeError, h).
Proof.
  intros d t g h Hn Hg; rewrite calculate_daylight_SHA_absent.
  destruct g as [| | | | | | | l]; try reflexivity; try congruence.
Qed.

Lemma mapM_to_doy_first_error :
  forall pre v post e h,
    Forall (fun p => exists d, fst (to_doy parse timestamp_other p h) = Ok d) pre ->
    fst (to_doy parse timestamp_other v h) = Err e ->
    mapM (to_doy parse timestamp_other) (pre ++ v :: post) h = (Err e, h).
Proof.
  intros pre v post e h Hall Hv.
  induction Hall as [|p pre [d Hp] _ IH].
  - simpl; unfold bind at 1.
    pose proof (to_doy_keeps_heap_eq v h) as Hk.
    destruct (to_doy parse timestamp_other v h) as [r h'] eqn:E.
    simpl in Hv, Hk; subst; reflexivity.
  - simpl; unfold bind at 1.
    pose proof (to_doy_keeps_heap_eq p h) as Hk.
    destruct (to_doy parse timestamp_other p h) as [r h'] eqn:E.
    simpl in Hp, Hk; subst.
    cbv beta iota; unfold bind at 1; rewrite IH; reflexivity.
Qed.

(** A [time_UTC] sequence is converted left to right: when the latitude
    resolves, every element before some element [v] converts and [v] fails
    with [e], the call fails with exactly [e], whatever follows [v] (no
    partial result). *)
Theorem calculate_daylight_time_UTC_first_error :
  forall lat geometry h lat' pre v post e,
    lat_used lat geometry h = Some lat' ->
    Forall (fun p => exists d, fst (to_doy parse timestamp_other p h) = Ok d) pre ->
    fst (to_doy parse timestamp_other v h) = Err e ->
    fst (calculate_daylight parse timestamp_other SHA_deg_from_DOY_lat daylight_from_SHA
           PNone lat PNone (PList (pre ++ v :: post)) geometry h) = Err e /\
    fst (calculate_daylight parse timestamp_other SHA_deg_from_DOY_lat daylight_from_SHA
           PNone lat PNone (PArray (pre ++ v :: post)) geometry h) = Err e.
Proof.
  intros lat g h lat' pre v post e Hu Hall Hv.
  rewrite !calculate_daylight_SHA_absent, (lat_step_used lat g h lat' Hu).
  assert (Hm := mapM_to_doy_first_error pre v post e h Hall Hv).
  unfold resolve_doy; cbn [is_None negb andb]; unfold bind;
    rewrite Hm; split; reflexivity.
Qed.

Lemma to_doy_int :
  forall v h d h', to_doy parse timestamp_other v h = (Ok d, h') ->
    exists z, d = PInt z.
Proof.
  intros v h d h'; unfold to_doy, bind, ret, raise, lift.
  destruct v; try (destruct (parse s));
    try (destruct (pd_Timestamp _ _));
    simpl; intro H; try discriminate; injection H as <- _; eexists; reflexivity.
Qed.

Lemma mapM_to_doy_ints :
  forall ts h ds h', mapM (to_doy parse timestamp_other) ts h = (Ok ds, h') ->
    length ds = length ts /\ Forall (fun x => exists z, x = PInt z) ds.
Proof.
  induction ts as [|t ts IH]; intros h ds h' H.
  - injection H as <- _; split; [reflexivity | constructor].
  - simpl in H; unfold bind at 1 in H.
    destruct (to_doy parse timestamp_other t h) as [[d|e] h1] eqn:E;
      [|discriminate].
    unfold bind in H.
    destruct (mapM (to_doy parse timestamp_other) ts h1) as [[ds'|e] h2] eqn:E2;
      [|discriminate].
    unfold ret in H; injection H as <- _.
    destruct (IH h1 ds' h2 E2) as [Hlen Hints].
    split; [simpl; congruence | constructor; [eapply to_doy_int; exact E | exact Hints]].
Qed.

(** Shape of the derived day of year: whenever the call reaches the engine
    with a day of year derived from [time_UTC], that day of year is an array
    of integers as long as [time_UTC] when [time_UTC] is a list or array, and
    a single integer otherwise. *)
Theorem resolve_doy_shape :
  forall time_UTC h d h',
    time_UTC <> PNone ->
    resolve_doy parse timestamp_other PNone time_UTC h = (Ok d, h') ->
    match time_UTC with
    | PList ts | PArray ts =>
        exists ds, d = PArray ds /\ length ds = length ts /\
                   Forall (fun x => exists z, x = PInt z) ds
    | _ => exists z, d = PInt z
    end.
Proof.
  intros t h d h' Ht; unfold resolve_doy.
  destruct t; try congruence; cbn [is_None negb andb]; intro H.
  all: try (eapply to_doy_int; exact H).
  all: unfold bind, ret in H;
    destruct (mapM (to_doy parse timestamp_other) l h) as [[ds|e] h1] eqn:E;
    [|discriminate]; injection H as <- _.
  all: exists ds; split; [reflexivity | apply (mapM_to_doy_ints l h ds h1 E)].
Qed.

(** Computing the sunrise hour angle in the call or supplying it gives the
    same daylight: for a supplied non-list [day_of_year] and [lat], if the
    engine returns a value [s] other than [None], the call equals
    [calculate_daylight(SHA_deg=s)]. *)
Theorem calculate_daylight_via_SHA :
  forall day_of_year lat s time_UTC geometry h,
    day_of_year <> PNone -> lat <> PNone -> is_list day_of_year = false ->
    SHA_deg_from_DOY_lat day_of_year lat = Ok s -> s <> PNone ->
    calculate_daylight parse timestamp_other SHA_deg_from_DOY_lat daylight_from_SHA
        day_of_year lat PNone time_UTC geometry h
    = calculate_daylight parse timestamp_other SHA_deg_from_DOY_lat daylight_from_SHA
        PNone PNone s PNone PNone h.
Proof.
  intros d lat s t g h Hd Hl Hlist He Hs.
  rewrite calculate_daylight_SHA_absent.
  assert (Hlat : (if is_None lat && negb (is_None g) then getattr_lat g else ret lat) h
                 = (Ok lat, h)) by (destruct lat; try congruence; reflexivity).
  rewrite Hlat; unfold resolve_doy.
  destruct d; try congruence; simpl in Hlist; try discriminate;
    cbn [is_None andb]; unfold ret; cbn [normalize_doy];
    unfold engine_then_convert; rewrite He;
    unfold calculate_daylight, bind, lift, ret;
    destruct s; try congruence; reflexivity.
Qed.

End Extras.

Module W2.

Abbreviation SHA := SpecEngine.SHA_deg_from_DOY_lat.
Abbreviation DL := SpecEngine.daylight_from_SHA.
Abbreviation cdw := (calculate_daylight iso_parse no_timestamp SHA DL).

Lemma calculate_daylight_empty_time_UTC_witness :
  lat_used PNone (PGeom 0) geo_heap = Some (PFloat 34) /\
  cdw PNone PNone PNone (PList []) (PGeom 0) geo_heap
  = (engine_then_convert SHA DL (PArray []) (PFloat 34), geo_heap).
Proof.
  assert (Hu : lat_used PNone (PGeom 0) geo_heap = Some (PFloat 34)) by reflexivity.
  split; [exact Hu|].
  exact (proj1 (calculate_daylight_empty_time_UTC iso_parse no_timestamp SHA DL
                  PNone (PGeom 0) geo_heap (PFloat 34) Hu)).
Defined.

Lemma calculate_daylight_lat_before_doy_witness :
  PInt 5 <> PNone /\ (forall l, PInt 5 <> PGeom l) /\
  cdw PNone PNone PNone (PStr "garbage") (PInt 5) empty_heap
  = (Err AttributeError, empty_heap).
Proof.
  assert (H1 : PInt 5 <> PNone) by discriminate.
  assert (H2 : forall l, PInt 5 <> PGeom l) by discriminate.
  split; [exact H1 | split; [exact H2|]].
  exact (calculate_daylight_lat_before_doy iso_parse no_timestamp SHA DL
           PNone (PStr "garbage") (PInt 5) empty_heap H1 H2).
Defined.

Lemma calculate_daylight_time_UTC_first_error_witness :
  lat_used PNone (PGeom 0) geo_heap = Some (PFloat 34) /\
  fst (to_doy iso_parse no_timestamp (PStr "garbage") geo_heap)
  = Err UnparsableTimestamp /\
  fst (cdw PNone PNone PNone
         (PList ([PDatetime (mkdate 2025 6 21)] ++ PStr "garbage" :: [PInt 5]))
         (PGeom 0) geo_heap)
  = Err UnparsableTimestamp.
Proof.
  assert (Hu : lat_used PNone (PGeom 0) geo_heap = Some (PFloat 34)) by reflexivity.
  assert (Hp : Forall (fun p => exists d,
                 fst (to_doy iso_parse no_timestamp p geo_heap) = Ok d)
                 [PDatetime (mkdate 2025 6 21)])
    by (constructor; [eexists; reflexivity | constructor]).
  assert (Hv : fst (to_doy iso_parse no_timestamp (PStr "garbage") geo_heap)
               = Err UnparsableTimestamp) by reflexivity.
  split; [exact Hu | split; [exact Hv|]].
  exact (proj1 (calculate_daylight_time_UTC_first_error iso_parse no_timestamp SHA DL
                  PNone (PGeom 0) geo_heap (PFloat 34) [PDatetime (mkdate 2025 6 21)]
                  (PStr "garbage") [PInt 5] UnparsableTimestamp Hu Hp Hv)).
Defined.

Lemma resolve_doy_shape_witness :
  resolve_doy iso_parse no_timestamp PNone
    (PList [PStr "2025-06-21"; PDatetime (mkdate 2024 3 1)]) empty_heap
  = (Ok (PArray [PInt 172; PInt 61]), empty_heap) /\
  exists ds, PArray [PInt 172; PInt 61] = PArray ds /\ length ds = 2%nat /\
             Forall (fun x => exists z, x = PInt z) ds.
Proof.
  assert (Ht : PList [PStr "2025-06-21"; PDatetime (mkdate 2024 3 1)] <> PNone)
    by discriminate.
  assert (Hr : resolve_doy iso_parse no_timestamp PNone
                 (PList [PStr "2025-06-21"; PDatetime (mkdate 2024 3 1)]) empty_heap
               = (Ok (PArray [PInt 172; PInt 61]), empty_heap)) by reflexivity.
  split; [exact Hr|].
  exact (resolve_doy_shape iso_parse no_timestamp _ empty_heap _ empty_heap Ht Hr).
Defined.

Lemma calculate_daylight_via_SHA_witness :
  SHA (PInt 172) (PFloat 34) = Ok (PFloat (SpecEngine.sha_deg (IZR 172) 34)) /\
  cdw (PInt 172) (PFloat 34) PNone PNone PNone empty_heap
  = cdw PNone PNone (PFloat (SpecEngine.sha_deg (IZR 172) 34)) PNone PNone empty_heap.
Proof.
  assert (H1 : PInt 172 <> PNone) by discriminate.
  assert (H2 : PFloat 34 <> PNone) by discriminate.
  assert (H3 : SHA (PInt 172) (PFloat 34)
               = Ok (PFloat (SpecEngine.sha_deg (IZR 172) 34))) by reflexivity.
  assert (H4 : PFloat (SpecEngine.sha_deg (IZR 172) 34) <> PNone) by discriminate.
  split; [exact H3|].
  exact (calculate_daylight_via_SHA iso_parse no_timestamp SHA DL
           (PInt 172) (PFloat 34) _ PNone PNone empty_heap H1 H2 eq_refl H3 H4).
Defined.

End W2.
